(** * Shallow embedding of the keybase client daemon: chat version cache
    (src/go/chat/storage/version.go), the service orchestrator (the Go
    [Service] code in src/shared/chat/conversations-list/index.desktop.js)
    and the framed-msgpack RPC client (src/unnamed/part_001). *)

From Stdlib Require Import ZArith List String Bool Lia.
Import ListNotations.
Open Scope string_scope.
Open Scope list_scope.

(** Go [error] values as they appear in this code: [errors.New] strings,
    the typed errors the code constructs, and opaque collaborator errors
    identified by a tag. *)
Inductive GoErr : Type :=
| ErrNew (msg : string)
| AlreadyRunning
| Opaque (tag : nat).

(** ** go/chat/storage/version.go *)
Module VersionCache.

(** chat1.ServerCacheVers *)
Record ServerCacheVers := mkVers { InboxVers : Z; BodiesVers : Z }.

Definition zeroVers : ServerCacheVers := mkVers 0 0.

(** The storage package's [Error]: internal errors (carrying the message
    prefix the code formats) and version mismatches. *)
Inductive Error : Type :=
| InternalError (msg : string)
| VersionMismatchError (expected actual : Z).

(** Raw bytes as stored in LevelDB. *)
Definition blob := list Z.

(** The msgpack codec [encode]/[decode] of the storage package, an
    external collaborator: [None] is an encode/decode error. *)
Record Codec := mkCodec {
  encode : ServerCacheVers -> option blob;
  decode : blob -> option ServerCacheVers
}.

(** [G().LocalChatDb] restricted to the key [makeKey()]: the stored raw
    value, and whether a [GetRaw]/[PutRaw] made in this state fails at the
    I/O level. The flags fix the outcome of the I/O calls made from one
    state; the properties below only rely on them for a single store read or
    write. *)
Record ChatDb := mkDb {
  stored : option blob;
  get_fails : bool;
  put_fails : bool
}.

(** [GetRaw]: (raw, found, err). *)
Definition GetRaw (db : ChatDb) : blob * bool * option GoErr :=
  if get_fails db then ([], false, Some (Opaque 1))
  else match stored db with
       | Some raw => (raw, true, None)
       | None => ([], false, None)
       end.

Definition PutRaw (db : ChatDb) (dat : blob) : option GoErr * ChatDb :=
  if put_fails db then (Some (Opaque 2), db)
  else (None, mkDb (Some dat) (get_fails db) (put_fails db)).

(** The [ServerVersions] object: its [cached] pointer and the database it
    reaches through its global context. *)
Record ServerVersions := mkSV {
  cached : option ServerCacheVers;
  chatdb : ChatDb
}.

Section Ops.
Variable cd : Codec.

(** [fetchLocked]: Go returns the pair (value, err). *)
Definition fetchLocked (s : ServerVersions)
  : (ServerCacheVers * option Error) * ServerVersions :=
  match cached s with
  | Some v => ((v, None), s)
  | None =>
      match GetRaw (chatdb s) with
      | (_, _, Some _) => ((zeroVers, Some (InternalError "GetRaw error")), s)
      | (_, false, None) => ((zeroVers, None), s)
      | (raw, true, None) =>
          match decode cd raw with
          | None => ((zeroVers, Some (InternalError "decode error")), s)
          | Some srvVers => ((srvVers, None), mkSV (Some srvVers) (chatdb s))
          end
      end
  end.

(** [Fetch] = [fetchLocked] under [locks.Version]. *)
Definition Fetch (s : ServerVersions) := fetchLocked s.

Definition matchLocked (s : ServerVersions) (vers : Z)
  (versFunc : ServerCacheVers -> Z) : option Error * ServerVersions :=
  let '((srvVers, err), s') := fetchLocked s in
  match err with
  | Some e => (Some e, s')
  | None =>
      let retVers := versFunc srvVers in
      if negb (Z.eqb retVers vers)
      then (Some (VersionMismatchError vers retVers), s')
      else (None, s')
  end.

Definition MatchInbox (s : ServerVersions) (vers : Z) :=
  matchLocked s vers InboxVers.

Definition MatchBodies (s : ServerVersions) (vers : Z) :=
  matchLocked s vers BodiesVers.

(** [Sync]: the memory write happens before encoding and the store write. *)
Definition Sync (s : ServerVersions) (vers : ServerCacheVers)
  : option Error * ServerVersions :=
  let s1 := mkSV (Some vers) (chatdb s) in
  match encode cd vers with
  | None => (Some (InternalError "encode error"), s1)
  | Some dat =>
      match PutRaw (chatdb s1) dat with
      | (Some _, db') => (Some (InternalError "PutRaw error"), mkSV (cached s1) db')
      | (None, db') => (None, mkSV (cached s1) db')
      end
  end.

(** Calls a client can make on the object. *)
Inductive Op : Type :=
| OpFetch
| OpMatchInbox (v : Z)
| OpMatchBodies (v : Z)
| OpSync (v : ServerCacheVers).

(** Observable answer of one call. *)
Inductive Answer : Type :=
| AFetch (v : ServerCacheVers) (err : option Error)
| AErr (err : option Error).

Definition step (s : ServerVersions) (o : Op) : Answer * ServerVersions :=
  match o with
  | OpFetch => let '((v, e), s') := Fetch s in (AFetch v e, s')
  | OpMatchInbox v => let '(e, s') := MatchInbox s v in (AErr e, s')
  | OpMatchBodies v => let '(e, s') := MatchBodies s v in (AErr e, s')
  | OpSync v => let '(e, s') := Sync s v in (AErr e, s')
  end.

Fixpoint run (s : ServerVersions) (os : list Op) : list Answer * ServerVersions :=
  match os with
  | [] => ([], s)
  | o :: os' =>
      let '(a, s1) := step s o in
      let '(as_, s2) := run s1 os' in
      (a :: as_, s2)
  end.

Definition is_sync (o : Op) : bool :=
  match o with OpSync _ => true | _ => false end.

End Ops.

(** A concrete codec: the two counters as a two-element byte list. *)
Definition pairCodec : Codec :=
  mkCodec (fun v => Some [InboxVers v; BodiesVers v])
          (fun b => match b with [i; d] => Some (mkVers i d) | _ => None end).

(** A codec whose encoder always fails. *)
Definition brokenCodec : Codec :=
  mkCodec (fun _ => None) (decode pairCodec).

Definition emptySV : ServerVersions := mkSV None (mkDb None false false).

End VersionCache.

(** ** service/service.go: the daemon orchestrator *)
Module Service.

(** Effects the orchestrator performs on its collaborators, in order. *)
Inductive Event : Type :=
| RekeyLogin
| ParseGregorURI
| GregorReset
| GregorConnect
| DelivererStart
| BGIdentifierStart
| GregorShutdown
| DelivererStop
| RekeyLogout
| BadgerClear
| BGIdentifierLogout.

(** The gregor push handler seen from the service: whether it is connected
    and what its [Reset] and [Connect] return. *)
Record GregorHandler := mkGregor {
  gh_connected : bool;
  gh_reset_err : option GoErr;
  gh_connect_err : option GoErr
}.

(** Environment values read through [G().Env] and the outcome of
    [StartOrReuseBackgroundIdentifier]. *)
Inductive BgiOutcome := BgiErr (e : GoErr) | BgiNone | BgiNew (id : nat).

Record Env := mkEnv {
  env_uid : option nat;               (* None: uid.IsNil() *)
  env_gregor_uri_err : option GoErr;  (* rpc.ParseFMPURI result *)
  env_bgi_disabled : bool;
  env_bgi_start : BgiOutcome
}.

(** The fields of [Service] that login and logout touch, plus
    [G().MessageDeliverer]. Pointers are options (None = nil). *)
Record Service := mkService {
  gregor : option GregorHandler;
  messageDeliverer : option nat;      (* d.messageDeliverer *)
  G_MessageDeliverer : option nat;    (* d.G().MessageDeliverer *)
  badger : option unit;
  backgroundIdentifier : option nat
}.

(** A Go run that either returns (with its error result) or panics on a nil
    dereference. *)
Inductive Outcome := Returned (err : option GoErr) | NilDeref.

(** [NewService]: badger is set, gregor, both deliverers and the background
    identifier are nil. *)
Definition NewService : Service :=
  mkService None None None (Some tt) None.

(** [createMessageDeliverer]: stores the new deliverer in the global
    context, [d.G().MessageDeliverer = chat.NewDeliverer(...)]. *)
Definition createMessageDeliverer (fresh : nat) (d : Service) : Service :=
  mkService (gregor d) (messageDeliverer d) (Some fresh) (badger d)
            (backgroundIdentifier d).

(** [gregordConnect]: [err] is the named result; the guard after [Reset]
    tests [err], which still holds the result of [ParseFMPURI]. *)
Definition gregordConnect (env : Env) (gh : GregorHandler)
  : option GoErr * list Event :=
  let err := env_gregor_uri_err env in
  match err with
  | Some e => (Some e, [ParseGregorURI])
  | None =>
      let ev_reset := if gh_connected gh then [GregorReset] else [] in
      (* if d.gregor.IsConnected() { if d.gregor.Reset(); err != nil { return err } }:
         the result of Reset is dropped and the guard reads err *)
      if gh_connected gh && (if err then true else false)
      then (err, ParseGregorURI :: ev_reset)
      else (gh_connect_err gh, ParseGregorURI :: ev_reset ++ [GregorConnect])
  end.

(** [runBackgroundIdentifierWithUID]: errors are only logged. *)
Definition runBackgroundIdentifierWithUID (env : Env) (d : Service)
  : Service * list Event :=
  if env_bgi_disabled env then (d, [])
  else
    match env_bgi_start env with
    | BgiErr _ => (d, [BGIdentifierStart])
    | BgiNone => (d, [BGIdentifierStart])
    | BgiNew id =>
        (mkService (gregor d) (messageDeliverer d) (G_MessageDeliverer d)
                   (badger d) (Some id), [BGIdentifierStart])
    end.

(** [OnLogin]. *)
Definition OnLogin (env : Env) (d : Service) : Outcome * Service * list Event :=
  let ev0 := [RekeyLogin] in
  match gregor d with
  | None =>
      (* gregordConnect parses the URI before its first use of d.gregor *)
      match env_gregor_uri_err env with
      | Some e => (Returned (Some e), d, ev0 ++ [ParseGregorURI])
      | None => (NilDeref, d, ev0 ++ [ParseGregorURI])
      end
  | Some gh =>
      let '(err, ev1) := gregordConnect env gh in
      match err with
      | Some e => (Returned (Some e), d, ev0 ++ ev1)
      | None =>
          match env_uid env with
          | None => (Returned None, d, ev0 ++ ev1)
          | Some _ =>
              match G_MessageDeliverer d with
              | None => (NilDeref, d, ev0 ++ ev1)
              | Some _ =>
                  let '(d', ev2) := runBackgroundIdentifierWithUID env d in
                  (Returned None, d', ev0 ++ ev1 ++ [DelivererStart] ++ ev2)
              end
          end
      end
  end.

(** [OnLogout]: each step is guarded only by a nil check; none returns
    early. *)
Definition OnLogout (d : Service) : option GoErr * list Event :=
  (None,
   (if gregor d then [GregorShutdown] else []) ++
   (if messageDeliverer d then [DelivererStop] else []) ++
   [RekeyLogout] ++
   (if badger d then [BadgerClear] else []) ++
   (if backgroundIdentifier d then [BGIdentifierLogout] else [])).

(** *** Connection handling: [Handle] and its [sync.Once] shutdown *)

(** Effects of the shutdown closure: the [Once] body starting and each
    registered Shutdowner's [Shutdown()]. *)
Inductive TEvent := TeardownBody | ShutdownerShutdown (id : nat).

(** The closure [shutdown] built in [Handle]; [done] is the state of
    [shutdownOnce]. Returns the new state, the effects and [nil]. *)
Definition shutdown (shutdowners : list nat) (done : bool)
  : bool * list TEvent * option GoErr :=
  if done then (true, [], None)
  else (true, TeardownBody :: map ShutdownerShutdown shutdowners, None).

(** The paths that invoke the closure: the [defer shutdown()] when [Handle]
    returns (connection closed, protocol error, registration error) and the
    hook pushed with [PushShutdownHook] firing at daemon shutdown. *)
Inductive ClosePath := HandleReturns | DaemonShutdownHook.

Fixpoint fire (shutdowners : list nat) (done : bool) (ps : list ClosePath)
  : bool * list TEvent :=
  match ps with
  | [] => (done, [])
  | _ :: ps' =>
      let '(done1, ev1, _) := shutdown shutdowners done in
      let '(done2, ev2) := fire shutdowners done1 ps' in
      (done2, ev1 ++ ev2)
  end.

(** One connection's [Handle]: a fresh [sync.Once]; the shutdowners are
    what [RegisterProtocols] returned. *)
Definition Handle (shutdowners : list nat) (ps : list ClosePath) : list TEvent :=
  snd (fire shutdowners false ps).

End Service.

(** *** Daemon startup: [Service.Run] *)
Module Startup.

(** Results of the collaborators [Run] calls before it listens. *)
Record RunEnv := mkRunEnv {
  re_runtime_dir_err : option GoErr;   (* os.MkdirAll in ensureRuntimeDir *)
  re_write_info_err : option GoErr;    (* rtInfo.WriteFile *)
  re_pid_file_err : option GoErr;      (* Env.GetPidFile *)
  re_lock_held : bool;                 (* the pid file is locked by another daemon *)
  re_socket_file_err : option GoErr;   (* Env.GetSocketBindFile *)
  re_file_exists : GoErr + bool;       (* libkb.FileExists *)
  re_remove_err : option GoErr;        (* os.Remove of a stale socket file *)
  re_localdb_err : option GoErr;       (* LocalDb.ForceOpen *)
  re_localchatdb_err : option GoErr;   (* LocalChatDb.ForceOpen *)
  re_bind_err : option GoErr;          (* G().BindToSocket *)
  re_listen_err : option GoErr         (* ListenLoop's result *)
}.

Inductive REvent :=
| RWriteServiceInfo
| RPushReleaseLockHook
| RRemoveSocketFile
| ROpenLocalDb
| ROpenLocalChatDb
| RBound
| RBackgroundOperations
| RListenLoop.

(** Sequencing of Go's [if err = f(); err != nil { return }]. *)
Definition andThen (r : option GoErr * list REvent)
  (k : unit -> option GoErr * list REvent) : option GoErr * list REvent :=
  match r with
  | (Some e, ev) => (Some e, ev)
  | (None, ev) => let '(e2, ev2) := k tt in (e2, ev ++ ev2)
  end.

Local Notation "a >>> b" := (andThen a (fun _ => b))
  (at level 60, right associativity).

Definition ensureRuntimeDir (env : RunEnv) : option GoErr :=
  re_runtime_dir_err env.

Definition writeServiceInfo (env : RunEnv) : option GoErr * list REvent :=
  match ensureRuntimeDir env with
  | Some e => (Some e, [])
  | None => (re_write_info_err env, [RWriteServiceInfo])
  end.

(** Modelled from the spec: [libkb.LockPIDFile.Lock], not among the sources,
    "acquires an exclusive single-instance lock at startup; fails fast with
    AlreadyRunning if held". *)
Definition LockPIDFile_Lock (held : bool) : option GoErr :=
  if held then Some AlreadyRunning else None.

Definition lockPIDFile (env : RunEnv) : option GoErr :=
  match re_pid_file_err env with
  | Some e => Some e
  | None => LockPIDFile_Lock (re_lock_held env)
  end.

Definition GetExclusiveLockWithoutAutoUnlock (env : RunEnv) : option GoErr :=
  match ensureRuntimeDir env with
  | Some e => Some e
  | None => lockPIDFile env
  end.

Definition GetExclusiveLock (env : RunEnv) : option GoErr * list REvent :=
  match GetExclusiveLockWithoutAutoUnlock env with
  | Some e => (Some e, [])
  | None => (None, [RPushReleaseLockHook])
  end.

Definition cleanupSocketFile (env : RunEnv) : option GoErr * list REvent :=
  match re_socket_file_err env with
  | Some e => (Some e, [])
  | None =>
      match re_file_exists env with
      | inl e => (Some e, [])
      | inr false => (None, [])
      | inr true => (re_remove_err env, [RRemoveSocketFile])
      end
  end.

Definition ConfigRPCServer (env : RunEnv) : option GoErr * list REvent :=
  match re_bind_err env with
  | Some e => (Some e, [])
  | None => (None, [RBound])
  end.

(** [Run] from [writeServiceInfo] on; the deferred closure does not touch
    [err], the chdir step only logs. *)
Definition Run (env : RunEnv) : option GoErr * list REvent :=
  writeServiceInfo env >>>
  GetExclusiveLock env >>>
  cleanupSocketFile env >>>
  (re_localdb_err env, [ROpenLocalDb]) >>>
  (re_localchatdb_err env, [ROpenLocalChatDb]) >>>
  ConfigRPCServer env >>>
  (re_listen_err env, [RBackgroundOperations; RListenLoop]).


End Startup.

(** ** rpc/client.go *)
Module Rpc.

(** A [context.Context] with the values [ctx.Value] can find. *)
Record Context := mkCtx { ctx_values : list (string * string) }.

Definition ctx_Value (ctx : Context) (key : string) : option string :=
  match find (fun kv => String.eqb (fst kv) key) (ctx_values ctx) with
  | Some (_, v) => Some v
  | None => None
  end.

(** Transport effects seen from the client. *)
Inductive XEvent :=
| XReceiveFrames
| XGetDispatcher
| XDispatchCall (method arg : string) (rpcTags : list (string * string)).

(** [LogTagsFromContext]: a map from context keys to tag names and ok. *)
Record Client := mkClient {
  tagsFunc : option (Context -> list (string * string) * bool);
  getDispatcher_err : option GoErr;
  dispatch_result : option GoErr
}.

(** [rpcTags[tagName] = v] on the map [CtxRpcTags], keyed by tag name: an
    existing entry for [tagName] is overwritten, a new one is appended. *)
Fixpoint tag_insert (tagName v : string) (m : list (string * string))
  : list (string * string) :=
  match m with
  | [] => [(tagName, v)]
  | (k, v') :: m' =>
      if String.eqb tagName k then (tagName, v) :: m'
      else (k, v') :: tag_insert tagName v m'
  end.

(** [for key, tagName := range tags { if v := ctx.Value(key); v != nil {
    rpcTags[tagName] = v } }]: [tags] lists the map [key -> tagName] in the
    order the range visits it (Go leaves that order unspecified, so every
    order is a possible list). *)
Definition collectStep (ctx : Context) (acc : list (string * string))
  (kt : string * string) : list (string * string) :=
  let '(key, tagName) := kt in
  match ctx_Value ctx key with
  | Some v => tag_insert tagName v acc
  | None => acc
  end.

Definition collectTags (ctx : Context) (tags : list (string * string))
  : list (string * string) :=
  fold_left (collectStep ctx) tags [].

(** [Client.Call]; [None] is a nil context. *)
Definition Call (c : Client) (ctx : option Context) (method arg : string)
  : option GoErr * list XEvent :=
  match ctx with
  | None => (Some (ErrNew "No Context provided for this call"), [])
  | Some cx =>
      let rpcTags :=
        match tagsFunc c with
        | None => []
        | Some f => let '(tags, ok) := f cx in
                    if ok then collectTags cx tags else []
        end in
      match getDispatcher_err c with
      | Some e => (Some e, [XReceiveFrames; XGetDispatcher])
      | None => (dispatch_result c,
                 [XReceiveFrames; XGetDispatcher; XDispatchCall method arg rpcTags])
      end
  end.

End Rpc.

(** ** service.go: gregor startup, the listen loop, protocol registration *)
Module Background.
Import Service.

(** Result of [G().LoginState().LoggedInLoad()]: the logged-in flag with no
    error, a [libkb.APINetError], or another error. *)
Inductive LoggedInLoad :=
| LoggedInOk (loggedIn : bool)
| LoginNetErr (e : GoErr)
| LoginOtherErr (e : GoErr).

(** [tryGregordConnect]. *)
Definition tryGregordConnect (li : LoggedInLoad) (env : Env) (gh : GregorHandler)
  : option GoErr * list Event :=
  match li with
  | LoginOtherErr e => (Some e, [])
  | LoginNetErr _ => gregordConnect env gh
  | LoggedInOk false => (None, [])
  | LoggedInOk true => gregordConnect env gh
  end.

(** What [startupGregor] reads: [Env.GetGregorDisabled()],
    [Env.GetTorMode().UseSession()], the result of [newGregorHandler] and of
    [LoggedInLoad]. *)
Record GregorStartEnv := mkGSEnv {
  gs_disabled : bool;
  gs_tor_use_session : bool;
  gs_new_handler : GoErr + GregorHandler;
  gs_logged_in : LoggedInLoad
}.

(** Effects of the background start-up steps. *)
Inductive BEvent :=
| BCore (e : Event)
| BHourlyChecks
| BCreateChatSources
| BCreateDeliverer
| BNewGregorHandler
| BPushDefaultHandlers.

Definition setGregor (g : option GregorHandler) (d : Service) : Service :=
  mkService g (messageDeliverer d) (G_MessageDeliverer d) (badger d)
            (backgroundIdentifier d).

(** [startupGregor]: [d.gregor, err = newGregorHandler(...)] assigns the
    (nil) handler on error; the result of [tryGregordConnect] is only
    logged. *)
Definition startupGregor (gs : GregorStartEnv) (env : Env) (d : Service)
  : Service * list BEvent :=
  if gs_disabled gs then (d, [])
  else if negb (gs_tor_use_session gs) then (d, [])
  else
    match gs_new_handler gs with
    | inl _ => (setGregor None d, [BNewGregorHandler])
    | inr gh =>
        let '(_gcErr, ev) := tryGregordConnect (gs_logged_in gs) env gh in
        (setGregor (Some gh) d,
         [BNewGregorHandler; BPushDefaultHandlers] ++ map BCore ev)
    end.

(** [startMessageDeliverer]: a nil [G().MessageDeliverer] is dereferenced. *)
Definition startMessageDeliverer (env : Env) (d : Service) : Outcome * list BEvent :=
  match env_uid env with
  | None => (Returned None, [])
  | Some _ =>
      match G_MessageDeliverer d with
      | None => (NilDeref, [])
      | Some _ => (Returned None, [BCore DelivererStart])
      end
  end.

(** [RunBackgroundOperations] up to [startMessageDeliverer]: hourlyChecks,
    createChatSources, createMessageDeliverer, startupGregor,
    startMessageDeliverer. *)
Definition RunBackgroundOperations_start (fresh : nat) (gs : GregorStartEnv)
  (env : Env) (d : Service) : Outcome * Service * list BEvent :=
  let d1 := createMessageDeliverer fresh d in
  let '(d2, ev) := startupGregor gs env d1 in
  let '(o, ev2) := startMessageDeliverer env d2 in
  (o, d2, [BHourlyChecks; BCreateChatSources; BCreateDeliverer] ++ ev ++ ev2).

(** Results of [l.Accept()]: a connection, an error that
    [libkb.IsSocketClosedError] recognises, or another error. *)
Inductive AcceptResult :=
| Accepted (conn : nat)
| AcceptSocketClosed
| AcceptFailed (e : GoErr).

(** [ListenLoop] either returns its error or is still accepting when the
    given accept results run out. *)
Inductive LoopResult := LoopReturned (err : option GoErr) | LoopAccepting.

(** [ListenLoop]: each accepted connection gets [go d.Handle(c)]; returns
    the connections handed to [Handle], in order. *)
Fixpoint ListenLoop (accepts : list AcceptResult) : LoopResult * list nat :=
  match accepts with
  | [] => (LoopAccepting, [])
  | Accepted c :: rest => let '(r, hs) := ListenLoop rest in (r, c :: hs)
  | AcceptSocketClosed :: _ => (LoopReturned None, [])
  | AcceptFailed e :: _ => (LoopReturned (Some e), [])
  end.

(** [RegisterProtocols]: each protocol (named, with what [srv.Register]
    returns for it) is registered in order until one fails. Returns the
    named result [shutdowners], which the body never assigns, the error,
    and the protocols [Register] was called on. *)
Fixpoint registerLoop (protos : list (string * option GoErr))
  : option GoErr * list string :=
  match protos with
  | [] => (None, [])
  | (name, Some e) :: _ => (Some e, [name])
  | (name, None) :: rest => let '(err, tried) := registerLoop rest in (err, name :: tried)
  end.

Definition RegisterProtocols (protos : list (string * option GoErr))
  : list nat * option GoErr * list string :=
  let '(err, tried) := registerLoop protos in ([], err, tried).

End Background.

(** * Properties *)
Import VersionCache Service Startup Rpc Background.

(** ** Version cache *)

(** A cache holding [v] in memory answers every [fetchLocked] from memory
    and leaves its state unchanged. *)
Lemma fetchLocked_cached : forall cd s v,
  cached s = Some v -> fetchLocked cd s = ((v, None), s).
Proof. intros cd [c db] v H; simpl in H; subst; reflexivity. Qed.

(** A call other than [Sync] on a cache holding [v] in memory answers from
    memory: [Fetch] returns [v], and the memory value is kept. *)
Lemma step_cached : forall cd s v o,
  is_sync o = false -> cached s = Some v ->
  (forall w e, fst (step cd s o) = AFetch w e -> w = v /\ e = None) /\
  snd (step cd s o) = s.
Proof.
  intros cd s v o Hns Hc.
  destruct o as [| n | n | w]; simpl in Hns; try discriminate;
    unfold step, Fetch, MatchInbox, MatchBodies, matchLocked;
    rewrite (fetchLocked_cached cd s v Hc); simpl.
  - split; [intros w e H; inversion H; auto | reflexivity].
  - destruct (negb (InboxVers v =? n)%Z); simpl;
      (split; [intros w e H; discriminate | reflexivity]).
  - destruct (negb (BodiesVers v =? n)%Z); simpl;
      (split; [intros w e H; discriminate | reflexivity]).
Qed.

(** Answers of a Sync-free run on a cache holding [v] in memory. *)
Lemma run_cached : forall cd os s v,
  forallb (fun o => negb (is_sync o)) os = true -> cached s = Some v ->
  Forall (fun a => match a with AFetch w e => w = v /\ e = None | AErr _ => True end)
         (fst (run cd s os)).
Proof.
  intros cd os; induction os as [| o os IH]; intros s v Hns Hc; simpl.
  - constructor.
  - simpl in Hns. apply andb_prop in Hns as [Ho Hos].
    apply negb_true_iff in Ho.
    destruct (step_cached cd s v o Ho Hc) as [Ha Hs].
    destruct (step cd s o) as [a s1] eqn:Hst; simpl in *.
    destruct (run cd s1 os) as [as_ s2] eqn:Hr; simpl.
    constructor.
    + destruct a as [w e |]; [apply (Ha w e); reflexivity | exact I].
    + subst s1. specialize (IH s v Hos Hc). rewrite Hr in IH. exact IH.
Qed.

(** C3 (amended): when the Fetch rule yields [sv] without error,
    [MatchInbox v] (resp. [MatchBodies v]) succeeds exactly when [v] equals
    [InboxVers sv] (resp. [BodiesVers sv]), and otherwise returns
    [VersionMismatchError] carrying the expected [v] and the actual cached
    value; when the Fetch rule fails (store read or decode error), both
    return that internal error instead, whatever [v] is. *)
Theorem match_follows_fetch : forall cd s v,
  (forall sv s', fetchLocked cd s = ((sv, None), s') ->
    (fst (MatchInbox cd s v) = None <-> v = InboxVers sv) /\
    (v <> InboxVers sv ->
       MatchInbox cd s v = (Some (VersionMismatchError v (InboxVers sv)), s')) /\
    (fst (MatchBodies cd s v) = None <-> v = BodiesVers sv) /\
    (v <> BodiesVers sv ->
       MatchBodies cd s v = (Some (VersionMismatchError v (BodiesVers sv)), s'))) /\
  (forall w e s', fetchLocked cd s = ((w, Some e), s') ->
    MatchInbox cd s v = (Some e, s') /\ MatchBodies cd s v = (Some e, s')).
Proof.
  intros cd s v; split.
  - intros sv s' Hf.
    unfold MatchInbox, MatchBodies, matchLocked; rewrite Hf.
    repeat split.
    + destruct (Z.eqb_spec (InboxVers sv) v); simpl; [congruence | discriminate].
    + intros ->; rewrite Z.eqb_refl; reflexivity.
    + intros Hne; destruct (Z.eqb_spec (InboxVers sv) v); [congruence | reflexivity].
    + destruct (Z.eqb_spec (BodiesVers sv) v); simpl; [congruence | discriminate].
    + intros ->; rewrite Z.eqb_refl; reflexivity.
    + intros Hne; destruct (Z.eqb_spec (BodiesVers sv) v); [congruence | reflexivity].
  - intros w e s' Hf.
    unfold MatchInbox, MatchBodies, matchLocked; rewrite Hf; split; reflexivity.
Qed.

(** The spec's scenario state: [Sync({5,5})] on an empty cache. *)
Definition synced55 : ServerVersions := snd (Sync pairCodec emptySV (mkVers 5 5)).

(** A state with nothing cached whose store read fails. *)
Definition readFails : ServerVersions := mkSV None (mkDb None true false).

(** C3 fails when the Fetch rule fails: with the store read failing, the
    Fetch rule gives the zero value (so [BodiesVers] 0), yet [MatchBodies 0]
    does not succeed, and what it returns is no [VersionMismatchError]. *)
Lemma match_fetch_error_counterexample :
  fetchLocked pairCodec readFails =
    ((zeroVers, Some (InternalError "GetRaw error")), readFails) /\
  BodiesVers zeroVers = 0%Z /\
  MatchBodies pairCodec readFails 0 = (Some (InternalError "GetRaw error"), readFails) /\
  fst (MatchBodies pairCodec readFails 0) <> None /\
  (forall a b, fst (MatchBodies pairCodec readFails 0) <> Some (VersionMismatchError a b)).
Proof.
  split; [reflexivity |]. split; [reflexivity |]. split; [reflexivity |].
  split; [discriminate |]. intros a b; simpl; discriminate.
Qed.

(** Witness of C3 (amended) on the scenario: [Fetch] gives {5,5},
    [MatchBodies 6] returns [VersionMismatchError(6,5)] and [MatchBodies 5]
    succeeds; on [readFails] both matches return the read error. *)
Lemma match_follows_fetch_witness :
  fetchLocked pairCodec synced55 = ((mkVers 5 5, None), synced55) /\
  MatchBodies pairCodec synced55 6 = (Some (VersionMismatchError 6 5), synced55) /\
  fst (MatchBodies pairCodec synced55 5) = None /\
  MatchInbox pairCodec readFails 5 = (Some (InternalError "GetRaw error"), readFails) /\
  MatchBodies pairCodec readFails 5 = (Some (InternalError "GetRaw error"), readFails).
Proof.
  assert (Hf : fetchLocked pairCodec synced55 = ((mkVers 5 5, None), synced55))
    by reflexivity.
  split; [exact Hf |].
  destruct (match_follows_fetch pairCodec synced55 6) as [H6 _].
  destruct (H6 (mkVers 5 5) synced55 Hf) as [_ [_ [_ Hb]]].
  destruct (match_follows_fetch pairCodec synced55 5) as [H5 _].
  destruct (H5 (mkVers 5 5) synced55 Hf) as [_ [_ [Hb5 _]]].
  destruct (match_follows_fetch pairCodec readFails 5) as [_ He].
  split; [apply Hb; simpl; lia |].
  split; [apply Hb5; reflexivity |].
  apply (He zeroVers (InternalError "GetRaw error") readFails); reflexivity.
Defined.

(** C4: after a successful [Sync newVers] the memory holds [newVers], the
    store holds its encoding, and every [Fetch] of any later sequence of
    calls without a [Sync] returns [newVers] with no error. *)
Theorem sync_then_fetch : forall cd s newVers s',
  Sync cd s newVers = (None, s') ->
  cached s' = Some newVers /\
  (exists dat, encode cd newVers = Some dat /\ stored (chatdb s') = Some dat) /\
  forall os, forallb (fun o => negb (is_sync o)) os = true ->
    Forall (fun a => match a with AFetch w e => w = newVers /\ e = None | AErr _ => True end)
           (fst (run cd s' os)).
Proof.
  intros cd s newVers s' H.
  unfold Sync in H.
  destruct (encode cd newVers) as [dat |] eqn:He; [| discriminate].
  unfold PutRaw in H; simpl in H.
  destruct (put_fails (chatdb s)) eqn:Hp; [discriminate |].
  inversion H; subst s'; clear H.
  assert (Hc : cached (mkSV (Some newVers)
                 (mkDb (Some dat) (get_fails (chatdb s)) (put_fails (chatdb s))))
               = Some newVers) by reflexivity.
  split; [exact Hc |]. split.
  - exists dat; split; reflexivity.
  - intros os Hos; apply run_cached; [exact Hos | reflexivity].
Qed.

(** Witness of C4: [Sync({5,5})] succeeds, then Fetch, MatchBodies 6, Fetch. *)
Lemma sync_then_fetch_witness :
  Sync pairCodec emptySV (mkVers 5 5) = (None, synced55) /\
  Forall (fun a => match a with
                   | AFetch w e => w = mkVers 5 5 /\ e = None | AErr _ => True end)
         (fst (run pairCodec synced55 [OpFetch; OpMatchBodies 6; OpFetch])).
Proof.
  assert (H : Sync pairCodec emptySV (mkVers 5 5) = (None, synced55)) by reflexivity.
  split; [exact H |].
  destruct (sync_then_fetch pairCodec emptySV (mkVers 5 5) synced55 H) as [_ [_ Hr]].
  apply Hr; reflexivity.
Defined.

(** C5, counterexample: with nothing in memory, a record is stored (and
    decodes to {5,5}) but the store read fails: [Fetch] returns the zero
    value with an error, not the persisted value; and with no record and a
    failing read, [Fetch] reports an error rather than the zero value with
    no error. *)
Lemma fetch_store_read_error :
  let s1 := mkSV None (mkDb (Some [5; 5]%Z) true false) in
  let s2 := mkSV None (mkDb None true false) in
  decode pairCodec [5; 5]%Z = Some (mkVers 5 5) /\
  Fetch pairCodec s1 = ((zeroVers, Some (InternalError "GetRaw error")), s1) /\
  fst (Fetch pairCodec s1) <> (mkVers 5 5, None) /\
  fst (Fetch pairCodec s2) <> (zeroVers, None).
Proof. vm_compute; repeat split; discriminate. Qed.

(** C5, amended: [Fetch] returns the in-memory value when one is cached.
    Otherwise it reads the store: a failed read returns the zero value with
    an internal error; a missing record returns the zero value with no
    error; a record that does not decode returns the zero value with an
    internal error; a record that decodes is returned with no error and
    cached in memory. *)
Theorem fetch_cases : forall cd s,
  (forall v, cached s = Some v -> Fetch cd s = ((v, None), s)) /\
  (cached s = None -> get_fails (chatdb s) = true ->
     Fetch cd s = ((zeroVers, Some (InternalError "GetRaw error")), s)) /\
  (cached s = None -> get_fails (chatdb s) = false -> stored (chatdb s) = None ->
     Fetch cd s = ((zeroVers, None), s)) /\
  (forall raw, cached s = None -> get_fails (chatdb s) = false ->
     stored (chatdb s) = Some raw -> decode cd raw = None ->
     Fetch cd s = ((zeroVers, Some (InternalError "decode error")), s)) /\
  (forall raw v, cached s = None -> get_fails (chatdb s) = false ->
     stored (chatdb s) = Some raw -> decode cd raw = Some v ->
     Fetch cd s = ((v, None), mkSV (Some v) (chatdb s))).
Proof.
  intros cd [c [st gf pf]]; unfold Fetch, fetchLocked, GetRaw; simpl.
  repeat split.
  - intros v ->; reflexivity.
  - intros -> ->; reflexivity.
  - intros -> -> ->; reflexivity.
  - intros raw -> -> -> Hd; rewrite Hd; reflexivity.
  - intros raw v -> -> -> Hd; rewrite Hd; reflexivity.
Qed.

(** Witness of the amended C5: an empty store gives {0,0} without error,
    the stored record {5,5} is loaded and cached, a failing read errors. *)
Lemma fetch_cases_witness :
  Fetch pairCodec emptySV = ((zeroVers, None), emptySV) /\
  Fetch pairCodec (mkSV None (mkDb (Some [5; 5]%Z) false false)) =
    ((mkVers 5 5, None), mkSV (Some (mkVers 5 5)) (mkDb (Some [5; 5]%Z) false false)) /\
  Fetch pairCodec (mkSV None (mkDb None true false)) =
    ((zeroVers, Some (InternalError "GetRaw error")), mkSV None (mkDb None true false)).
Proof.
  split; [| split].
  - apply (fetch_cases pairCodec emptySV); reflexivity.
  - apply (fetch_cases pairCodec (mkSV None (mkDb (Some [5; 5]%Z) false false)))
      with (raw := [5; 5]%Z); reflexivity.
  - apply (fetch_cases pairCodec (mkSV None (mkDb None true false))); reflexivity.
Defined.

(** C9: [Sync] is not atomic on error. When it reports an error (the
    encoder or the store write failed) the memory already holds the new
    versions, so [Fetch] returns them, while the stored record is the old
    one. *)
Theorem sync_error_keeps_memory_write : forall cd s newVers e s',
  Sync cd s newVers = (Some e, s') ->
  Fetch cd s' = ((newVers, None), s') /\ stored (chatdb s') = stored (chatdb s).
Proof.
  intros cd s newVers e s' H; unfold Sync, PutRaw in H.
  destruct (encode cd newVers) as [dat |].
  - simpl in H; destruct (put_fails (chatdb s)) eqn:Hp; inversion H; subst.
    split; reflexivity.
  - inversion H; subst; split; reflexivity.
Qed.

(** Witness of C9: a failing encoder and a failing store write. *)
Lemma sync_error_keeps_memory_write_witness :
  Fetch brokenCodec (snd (Sync brokenCodec synced55 (mkVers 6 7))) =
    ((mkVers 6 7, None), snd (Sync brokenCodec synced55 (mkVers 6 7))) /\
  Fetch pairCodec (snd (Sync pairCodec (mkSV None (mkDb None false true)) (mkVers 6 7))) =
    ((mkVers 6 7, None),
     snd (Sync pairCodec (mkSV None (mkDb None false true)) (mkVers 6 7))).
Proof.
  split.
  - apply (sync_error_keeps_memory_write brokenCodec synced55 (mkVers 6 7)
             (InternalError "encode error")).
    reflexivity.
  - apply (sync_error_keeps_memory_write pairCodec (mkSV None (mkDb None false true))
             (mkVers 6 7) (InternalError "PutRaw error")).
    reflexivity.
Defined.

(** ** Orchestrator: login and logout *)

(** A logged-in environment and a service whose gregor connection fails,
    with its deliverer already created. *)
Definition loginEnv : Env := mkEnv (Some 1) None false (BgiNew 7).

Definition gregorDown : GregorHandler := mkGregor false None (Some (Opaque 3)).

Definition serviceGregorDown : Service :=
  mkService (Some gregorDown) None (Some 1) (Some tt) None.

(** C1 (as the code does it): when the gregor [Connect] fails, [OnLogin]
    returns that error right after the attempt; the Deliverer is not started
    and the background identifier is not started. *)
Theorem OnLogin_connect_error_skips_later_starts : forall env d gh e,
  gregor d = Some gh -> env_gregor_uri_err env = None ->
  gh_connected gh = false -> gh_connect_err gh = Some e ->
  OnLogin env d = (Returned (Some e), d, [RekeyLogin; ParseGregorURI; GregorConnect]) /\
  ~ In DelivererStart (snd (OnLogin env d)) /\
  ~ In BGIdentifierStart (snd (OnLogin env d)).
Proof.
  intros env d gh e Hg Hu Hc He.
  assert (H : OnLogin env d =
              (Returned (Some e), d, [RekeyLogin; ParseGregorURI; GregorConnect])).
  { unfold OnLogin, gregordConnect; rewrite Hg, Hu, Hc, He; reflexivity. }
  rewrite H; simpl; repeat split; intros Hin; intuition discriminate.
Qed.

(** Witness of C1's failing input. *)
Lemma OnLogin_connect_error_skips_later_starts_witness :
  OnLogin loginEnv serviceGregorDown =
    (Returned (Some (Opaque 3)), serviceGregorDown,
     [RekeyLogin; ParseGregorURI; GregorConnect]) /\
  ~ In DelivererStart (snd (OnLogin loginEnv serviceGregorDown)) /\
  ~ In BGIdentifierStart (snd (OnLogin loginEnv serviceGregorDown)).
Proof.
  apply (OnLogin_connect_error_skips_later_starts loginEnv serviceGregorDown
           gregorDown (Opaque 3)); reflexivity.
Defined.

(** The logout sequence when every component is present. *)
Lemma OnLogout_full_sequence : forall gh md gmd b bgi,
  OnLogout (mkService (Some gh) (Some md) gmd (Some b) (Some bgi)) =
    (None, [GregorShutdown; DelivererStop; RekeyLogout; BadgerClear; BGIdentifierLogout]).
Proof. reflexivity. Qed.

(** [OnLogin] changes neither deliverer pointer. *)
Lemma OnLogin_keeps_deliverers : forall env d o d' ev,
  OnLogin env d = (o, d', ev) ->
  messageDeliverer d' = messageDeliverer d /\ G_MessageDeliverer d' = G_MessageDeliverer d.
Proof.
  intros env d o d' ev H; unfold OnLogin, runBackgroundIdentifierWithUID in H.
  destruct (gregor d) as [gh |];
    [| destruct (env_gregor_uri_err env); inversion H; subst; (split; congruence)].
  destruct (gregordConnect env gh) as [[e |] ev1]; [inversion H; subst; (split; congruence) |].
  destruct (env_uid env); [| inversion H; subst; (split; congruence)].
  destruct (G_MessageDeliverer d) eqn:Hg; [| inversion H; subst; (split; congruence)].
  destruct (env_bgi_disabled env); [inversion H; subst; (split; congruence) |].
  destruct (env_bgi_start env); inversion H; subst; simpl; (split; congruence).
Qed.

(** C2 (as the code does it): [createMessageDeliverer] stores the deliverer
    in [G().MessageDeliverer] only, and [OnLogin] sets no deliverer pointer,
    while [OnLogout] tests the [d.messageDeliverer] field. So for a service
    whose field is nil (as [NewService] leaves it), after the deliverer is
    created and a login, the deliverer exists but logout never calls its
    [Stop]. *)
Theorem OnLogout_skips_created_deliverer : forall fresh env d o d' ev,
  messageDeliverer d = None ->
  OnLogin env (createMessageDeliverer fresh d) = (o, d', ev) ->
  G_MessageDeliverer d' = Some fresh /\
  ~ In DelivererStop (snd (OnLogout d')).
Proof.
  intros fresh env d o d' ev Hm H.
  apply OnLogin_keeps_deliverers in H as [Hm' Hg']; simpl in Hm', Hg'.
  split; [exact Hg' |].
  unfold OnLogout; simpl; rewrite Hm', Hm; simpl.
  destruct (gregor d'), (badger d'), (backgroundIdentifier d'); simpl; intuition discriminate.
Qed.

(** A service after [startupGregor] connected gregor, before the deliverer
    is created. *)
Definition serviceGregorUp : Service :=
  mkService (Some (mkGregor true None None)) None None (Some tt) None.

(** Witness of C2's failing input: the deliverer is created and started at
    login, then logout runs without [DelivererStop]. *)
Lemma OnLogout_skips_created_deliverer_witness :
  In DelivererStart (snd (OnLogin loginEnv (createMessageDeliverer 1 serviceGregorUp))) /\
  G_MessageDeliverer (snd (fst (OnLogin loginEnv (createMessageDeliverer 1 serviceGregorUp))))
    = Some 1 /\
  ~ In DelivererStop
      (snd (OnLogout (snd (fst (OnLogin loginEnv (createMessageDeliverer 1 serviceGregorUp)))))).
Proof.
  split; [vm_compute; auto 10 |].
  apply (OnLogout_skips_created_deliverer 1 loginEnv serviceGregorUp
           (fst (fst (OnLogin loginEnv (createMessageDeliverer 1 serviceGregorUp))))
           (snd (fst (OnLogin loginEnv (createMessageDeliverer 1 serviceGregorUp))))
           (snd (OnLogin loginEnv (createMessageDeliverer 1 serviceGregorUp)))).
  - reflexivity.
  - reflexivity.
Defined.

(** C10: when gregor is already connected (and the URI parsed),
    [gregordConnect] calls [Reset], drops its result, calls [Connect] and
    returns exactly what [Connect] returns, whatever [Reset] returned. *)
Theorem gregordConnect_drops_reset_error : forall env gh,
  env_gregor_uri_err env = None -> gh_connected gh = true ->
  gregordConnect env gh = (gh_connect_err gh, [ParseGregorURI; GregorReset; GregorConnect]).
Proof.
  intros env [c r k] Hu Hc; simpl in Hc; subst c.
  unfold gregordConnect; rewrite Hu; reflexivity.
Qed.

(** Witness of C10: [Reset] fails, [Connect] succeeds, and [gregordConnect]
    returns nil. *)
Lemma gregordConnect_drops_reset_error_witness :
  gregordConnect loginEnv (mkGregor true (Some (Opaque 4)) None) =
    (None, [ParseGregorURI; GregorReset; GregorConnect]).
Proof. apply (gregordConnect_drops_reset_error loginEnv); reflexivity. Defined.

(** ** Orchestrator: connection teardown *)

(** Once the [Once] has fired, further calls of the closure do nothing. *)
Lemma fire_done : forall shs ps, fire shs true ps = (true, []).
Proof. intros shs ps; induction ps as [| p ps IH]; simpl; [| rewrite IH]; reflexivity. Qed.

(** C6: for any non-empty sequence of close paths (the deferred call when
    [Handle] returns, the daemon shutdown hook, in any order and number),
    the teardown body runs exactly once and calls each registered
    Shutdowner once, in order. *)
Theorem Handle_teardown_once : forall shs ps,
  ps <> [] ->
  Handle shs ps = TeardownBody :: map ShutdownerShutdown shs.
Proof.
  intros shs [| p ps] Hne; [congruence |].
  unfold Handle; simpl; rewrite fire_done; simpl; rewrite app_nil_r; reflexivity.
Qed.

(** Witness of C6: the shutdown hook fires, then the connection closes. *)
Lemma Handle_teardown_once_witness :
  Handle [1; 2] [DaemonShutdownHook; HandleReturns; DaemonShutdownHook] =
    [TeardownBody; ShutdownerShutdown 1; ShutdownerShutdown 2].
Proof. apply Handle_teardown_once; discriminate. Defined.

(** ** Orchestrator: startup *)

(** A step that failed, or a step without [RBound], leaves a failed run
    without [RBound]. *)
Definition aborted_unbound (r : option GoErr * list REvent) : Prop :=
  fst r <> None /\ ~ In RBound (snd r).

Lemma andThen_fail : forall r k,
  fst r <> None -> ~ In RBound (snd r) -> aborted_unbound (andThen r k).
Proof.
  intros [[e |] ev] k He Hb; unfold andThen; simpl in *; [split; assumption | congruence].
Qed.

Lemma andThen_then : forall r k,
  ~ In RBound (snd r) -> aborted_unbound (k tt) -> aborted_unbound (andThen r k).
Proof.
  intros [[e |] ev] k Hb [He Hb2]; unfold andThen; simpl in *.
  - split; [discriminate | assumption].
  - destruct (k tt) as [e2 ev2]; simpl in *.
    unfold aborted_unbound; simpl; split; [assumption | rewrite in_app_iff; intuition].
Qed.

Ltac no_bound :=
  let H := fresh in
  intro H;
  repeat match type of H with
         | In _ (snd (match ?x with _ => _ end)) => destruct x
         | context [match ?x with _ => _ end] => destruct x
         end;
  simpl in H; intuition discriminate.

(** C7, counterexample: the lock is held but writing the service info file
    fails first, so [Run] fails with that error, not [AlreadyRunning]. *)
Lemma Run_lock_held_other_error :
  let env := mkRunEnv None (Some (Opaque 9)) None true None (inr false)
                      None None None None None in
  re_lock_held env = true /\ fst (Run env) = Some (Opaque 9) /\
  fst (Run env) <> Some AlreadyRunning.
Proof. vm_compute; repeat split; discriminate. Qed.

(** C7, amended: [Run] returns an error and never binds the socket when
    acquiring the exclusive lock, the socket file cleanup, opening either
    local database, or the bind fails; and when the lock is held by another
    daemon and the steps before it (runtime directory, service info file,
    pid file path) succeed, [Run] fails with [AlreadyRunning]. *)
Theorem Run_aborts_before_bind : forall env,
  ((fst (GetExclusiveLock env) <> None \/ fst (cleanupSocketFile env) <> None \/
    re_localdb_err env <> None \/ re_localchatdb_err env <> None \/
    re_bind_err env <> None) ->
   fst (Run env) <> None /\ ~ In RBound (snd (Run env))) /\
  (re_lock_held env = true -> re_runtime_dir_err env = None ->
   re_write_info_err env = None -> re_pid_file_err env = None ->
   fst (Run env) = Some AlreadyRunning /\ ~ In RBound (snd (Run env))).
Proof.
  intros env; split.
  - intros Hfail.
    assert (Hw : ~ In RBound (snd (writeServiceInfo env)))
      by (unfold writeServiceInfo; no_bound).
    assert (Hl : ~ In RBound (snd (GetExclusiveLock env)))
      by (unfold GetExclusiveLock; no_bound).
    assert (Hc : ~ In RBound (snd (cleanupSocketFile env)))
      by (unfold cleanupSocketFile; no_bound).
    assert (Hb : ~ In RBound (snd (ConfigRPCServer env)) \/ re_bind_err env = None)
      by (unfold ConfigRPCServer; destruct (re_bind_err env); [left; no_bound | right; reflexivity]).
    unfold Run; apply andThen_then; [exact Hw |].
    destruct Hfail as [H | [H | [H | [H | H]]]].
    + apply andThen_fail; assumption.
    + apply andThen_then; [exact Hl |]. apply andThen_fail; assumption.
    + apply andThen_then; [exact Hl |]. apply andThen_then; [exact Hc |].
      apply andThen_fail; [exact H | simpl; intuition discriminate].
    + apply andThen_then; [exact Hl |]. apply andThen_then; [exact Hc |].
      apply andThen_then; [simpl; intuition discriminate |].
      apply andThen_fail; [exact H | simpl; intuition discriminate].
    + apply andThen_then; [exact Hl |]. apply andThen_then; [exact Hc |].
      apply andThen_then; [simpl; intuition discriminate |].
      apply andThen_then; [simpl; intuition discriminate |].
      apply andThen_fail; [unfold ConfigRPCServer; destruct (re_bind_err env); simpl; congruence |].
      destruct Hb as [Hb | Hb]; [exact Hb | congruence].
  - intros Hh Hr Hw Hp.
    destruct env as [rd wi pf lh sf fe rm ldb lcdb bd ls]; simpl in *; subst.
    split; [reflexivity | simpl; intuition discriminate].
Qed.

(** Witness of the amended C7: a held lock, a failing bind, and a failing
    chat database open. *)
Lemma Run_aborts_before_bind_witness :
  fst (Run (mkRunEnv None None None true None (inr false) None None None None None))
    = Some AlreadyRunning /\
  ~ In RBound (snd (Run (mkRunEnv None None None false None (inr false) None None None
                                  (Some (Opaque 5)) None))) /\
  fst (Run (mkRunEnv None None None false None (inr true) None None (Some (Opaque 6))
                     None None)) <> None.
Proof.
  split; [| split].
  - apply (proj2 (Run_aborts_before_bind
                    (mkRunEnv None None None true None (inr false) None None None None None)));
      reflexivity.
  - apply (proj1 (Run_aborts_before_bind
                    (mkRunEnv None None None false None (inr false) None None None
                              (Some (Opaque 5)) None))).
    right; right; right; right; discriminate.
  - apply (proj1 (Run_aborts_before_bind
                    (mkRunEnv None None None false None (inr true) None None (Some (Opaque 6))
                              None None))).
    right; right; right; left; discriminate.
Defined.

(** ** RPC client *)

(** C8: [Call] with a nil context, for every client, method and argument,
    returns the error "No Context provided for this call" and performs no
    transport action: no frame is received, no dispatcher fetched, nothing
    dispatched. *)
Theorem Call_nil_context : forall c method arg,
  Call c None method arg = (Some (ErrNew "No Context provided for this call"), []).
Proof. reflexivity. Qed.

(** * Further properties of the code *)

(** ** Version cache *)

(** The codec [pairCodec] decodes what it encodes. *)
Lemma pairCodec_roundtrip : forall w dat,
  encode pairCodec w = Some dat -> decode pairCodec dat = Some w.
Proof. intros [i b] dat H; simpl in H; inversion H; reflexivity. Qed.

(** After a successful [Sync], a new [ServerVersions] (empty memory) over
    the same store loads the synced value and caches it, provided the codec
    decodes what it encodes and the store read does not fail. *)
Theorem sync_persists_across_restart : forall cd s v s',
  (forall w dat, encode cd w = Some dat -> decode cd dat = Some w) ->
  get_fails (chatdb s) = false ->
  Sync cd s v = (None, s') ->
  Fetch cd (mkSV None (chatdb s')) = ((v, None), mkSV (Some v) (chatdb s')).
Proof.
  intros cd s v s' Hrt Hg H; unfold Sync, PutRaw in H; simpl in H.
  destruct (encode cd v) as [dat |] eqn:He; [| discriminate].
  destruct (put_fails (chatdb s)) eqn:Hp; [discriminate |].
  inversion H; subst; clear H.
  unfold Fetch, fetchLocked, GetRaw; simpl; rewrite Hg, (Hrt v dat He); reflexivity.
Qed.

Lemma sync_persists_across_restart_witness :
  Fetch pairCodec (mkSV None (chatdb synced55)) =
    ((mkVers 5 5, None), mkSV (Some (mkVers 5 5)) (chatdb synced55)).
Proof.
  apply (sync_persists_across_restart pairCodec emptySV).
  - exact pairCodec_roundtrip.
  - reflexivity.
  - reflexivity.
Defined.

(** A [Fetch] without error either leaves the value it returned cached in
    memory, so that the next [Fetch] returns it again whatever the store
    then holds or does, or it found no record: then it returned the zero
    value, cached nothing and left the state unchanged, so the next [Fetch]
    reads the store again. *)
Theorem fetch_success_cached_or_default : forall cd s v s',
  Fetch cd s = ((v, None), s') ->
  (cached s' = Some v /\
   forall db, Fetch cd (mkSV (cached s') db) = ((v, None), mkSV (cached s') db)) \/
  (s' = s /\ cached s = None /\ stored (chatdb s) = None /\ v = zeroVers).
Proof.
  intros cd [[c |] db] v s' H; unfold Fetch, fetchLocked, GetRaw in *; simpl in *.
  - inversion H; subst; left; split; reflexivity.
  - destruct (get_fails db) eqn:Hg; [inversion H |].
    destruct (stored db) as [raw |] eqn:Hs.
    + destruct (decode cd raw) eqn:Hd; inversion H; subst.
      left; split; reflexivity.
    + inversion H; subst; right; auto.
Qed.

Lemma fetch_success_cached_or_default_witness :
  (cached (mkSV (Some (mkVers 5 5)) (chatdb synced55)) = Some (mkVers 5 5) /\
   forall db, Fetch pairCodec (mkSV (cached (mkSV (Some (mkVers 5 5)) (chatdb synced55))) db) =
              ((mkVers 5 5, None),
               mkSV (cached (mkSV (Some (mkVers 5 5)) (chatdb synced55))) db)) \/
  (mkSV (Some (mkVers 5 5)) (chatdb synced55) = mkSV None (chatdb synced55) /\
   cached (mkSV None (chatdb synced55)) = None /\
   stored (chatdb (mkSV None (chatdb synced55))) = None /\ mkVers 5 5 = zeroVers).
Proof.
  apply (fetch_success_cached_or_default pairCodec (mkSV None (chatdb synced55))).
  reflexivity.
Defined.

(** [Fetch] never writes the store, and it changes the memory only to cache
    a value it returns without error, when nothing was cached before. *)
Theorem fetch_only_caches_returned : forall cd s,
  chatdb (snd (Fetch cd s)) = chatdb s /\
  (snd (Fetch cd s) = s \/
   (cached s = None /\ exists v, fst (Fetch cd s) = (v, None) /\
                                 snd (Fetch cd s) = mkSV (Some v) (chatdb s))).
Proof.
  intros cd [[c |] db]; unfold Fetch, fetchLocked, GetRaw; simpl.
  - split; [reflexivity | left; reflexivity].
  - destruct (get_fails db); simpl; [split; [reflexivity | left; reflexivity] |].
    destruct (stored db) as [raw |]; simpl; [| split; [reflexivity | left; reflexivity]].
    destruct (decode cd raw) as [v |]; simpl;
      [split; [reflexivity | right; split; [reflexivity | exists v; split; reflexivity]]
      | split; [reflexivity | left; reflexivity]].
Qed.

(** [MatchInbox] and [MatchBodies] load and cache exactly as [Fetch] does,
    and return a [Fetch] error unchanged. *)
Theorem match_state_as_fetch : forall cd s x,
  snd (MatchInbox cd s x) = snd (Fetch cd s) /\
  snd (MatchBodies cd s x) = snd (Fetch cd s) /\
  (forall e, snd (fst (Fetch cd s)) = Some e ->
     fst (MatchInbox cd s x) = Some e /\ fst (MatchBodies cd s x) = Some e).
Proof.
  intros cd s x; unfold MatchInbox, MatchBodies, matchLocked, Fetch.
  destruct (fetchLocked cd s) as [[w [e |]] s']; simpl.
  - split; [reflexivity | split; [reflexivity |]].
    intros e' He; inversion He; split; reflexivity.
  - split; [destruct (negb (InboxVers w =? x)%Z); reflexivity |].
    split; [destruct (negb (BodiesVers w =? x)%Z); reflexivity |].
    intros e' He; discriminate.
Qed.

Lemma match_state_as_fetch_witness :
  fst (MatchInbox pairCodec (mkSV None (mkDb None true false)) 3)
    = Some (InternalError "GetRaw error") /\
  fst (MatchBodies pairCodec (mkSV None (mkDb None true false)) 3)
    = Some (InternalError "GetRaw error").
Proof.
  apply (match_state_as_fetch pairCodec (mkSV None (mkDb None true false)) 3).
  reflexivity.
Defined.

(** Whatever [Sync v] returns, matching against [v]'s own counters then
    succeeds and leaves the state unchanged. *)
Theorem sync_then_match_own : forall cd s v,
  MatchInbox cd (snd (Sync cd s v)) (InboxVers v) = (None, snd (Sync cd s v)) /\
  MatchBodies cd (snd (Sync cd s v)) (BodiesVers v) = (None, snd (Sync cd s v)).
Proof.
  intros cd s v.
  assert (Hc : cached (snd (Sync cd s v)) = Some v).
  { unfold Sync, PutRaw; simpl; destruct (encode cd v); [destruct (put_fails (chatdb s))|]; reflexivity. }
  unfold MatchInbox, MatchBodies, matchLocked.
  rewrite (fetchLocked_cached cd _ v Hc), !Z.eqb_refl; split; reflexivity.
Qed.

(** ** Orchestrator: gregor start-up and login *)

(** [tryGregordConnect] calls gregor's [Connect] exactly when the login
    check reports logged in or fails with a network error, and the gregor
    URI parses; any other login-check error is returned as is. *)
Theorem tryGregordConnect_connects_iff : forall li env gh,
  (In GregorConnect (snd (tryGregordConnect li env gh)) <->
   (li = LoggedInOk true \/ exists e, li = LoginNetErr e) /\
   env_gregor_uri_err env = None) /\
  (forall e, fst (tryGregordConnect (LoginOtherErr e) env gh) = Some e).
Proof.
  intros li env [c r k]; split; [| reflexivity].
  assert (Hg : In GregorConnect (snd (gregordConnect env (mkGregor c r k))) <->
               env_gregor_uri_err env = None).
  { unfold gregordConnect; destruct (env_gregor_uri_err env); simpl.
    - split; [intros [H | H]; [discriminate | contradiction] | discriminate].
    - destruct c; simpl; split; intros; auto 6; right; auto. }
  destruct li as [[|] | e | e]; simpl.
  - rewrite Hg; split; [intros H; split; auto | intros [_ H]; exact H].
  - split; [contradiction | intros [[H | [e H]] _]; discriminate].
  - rewrite Hg; split; [intros H; split; eauto | intros [_ H]; exact H].
  - split; [contradiction | intros [[H | [e' H]] _]; discriminate].
Qed.

(** [startupGregor] keeps [G().MessageDeliverer]. *)
Lemma startupGregor_keeps_deliverer : forall gs env d,
  G_MessageDeliverer (fst (startupGregor gs env d)) = G_MessageDeliverer d.
Proof.
  intros gs env d; unfold startupGregor.
  destruct (gs_disabled gs), (negb (gs_tor_use_session gs)); try reflexivity;
    destruct (gs_new_handler gs) as [e | gh]; try reflexivity.
  destruct (tryGregordConnect (gs_logged_in gs) env gh); reflexivity.
Qed.

(** In [RunBackgroundOperations], whatever gregor start-up does (disabled,
    handler creation failing, login check or [Connect] failing), the
    message deliverer is started afterwards when a user is logged in, as
    the last step of the sequence up to [startMessageDeliverer]. *)
Theorem background_start_always_starts_deliverer : forall fresh gs env d u,
  env_uid env = Some u ->
  fst (fst (RunBackgroundOperations_start fresh gs env d)) = Returned None /\
  exists ev, snd (RunBackgroundOperations_start fresh gs env d) =
             ev ++ [BCore DelivererStart].
Proof.
  intros fresh gs env d u Hu; unfold RunBackgroundOperations_start.
  pose proof (startupGregor_keeps_deliverer gs env (createMessageDeliverer fresh d)) as Hk.
  destruct (startupGregor gs env (createMessageDeliverer fresh d)) as [d2 ev] eqn:Hs.
  simpl in Hk; unfold startMessageDeliverer; rewrite Hu, Hk; simpl.
  split; [reflexivity |].
  exists ([BHourlyChecks; BCreateChatSources; BCreateDeliverer] ++ ev).
  rewrite <- app_assoc; reflexivity.
Qed.

(** A gregor start-up whose handler is created, the user logged in, and
    [Connect] fails. *)
Definition gsConnectFails : GregorStartEnv :=
  mkGSEnv false true (inr gregorDown) (LoggedInOk true).

Lemma background_start_always_starts_deliverer_witness :
  fst (fst (RunBackgroundOperations_start 1 gsConnectFails loginEnv NewService))
    = Returned None /\
  exists ev, snd (RunBackgroundOperations_start 1 gsConnectFails loginEnv NewService) =
             ev ++ [BCore DelivererStart].
Proof. apply (background_start_always_starts_deliverer 1 gsConnectFails loginEnv NewService 1); reflexivity. Defined.

(** Unlike the deliverer, a background identifier created by [OnLogin] is
    recorded in the service, so the following [OnLogout] calls its
    [Logout]. *)
Theorem login_bgi_stopped_at_logout : forall env d gh ev1 u m id,
  gregor d = Some gh -> gregordConnect env gh = (None, ev1) ->
  env_uid env = Some u -> G_MessageDeliverer d = Some m ->
  env_bgi_disabled env = false -> env_bgi_start env = BgiNew id ->
  backgroundIdentifier (snd (fst (OnLogin env d))) = Some id /\
  In BGIdentifierLogout (snd (OnLogout (snd (fst (OnLogin env d))))).
Proof.
  intros env d gh ev1 u m id Hg Hc Hu Hm Hd Hb.
  unfold OnLogin, runBackgroundIdentifierWithUID; rewrite Hg, Hc, Hu, Hm, Hd, Hb; simpl.
  split; [reflexivity |].
  unfold OnLogout; simpl; destruct (messageDeliverer d), (badger d); simpl; auto 10.
Qed.

Definition serviceReady : Service :=
  mkService (Some (mkGregor true None None)) None (Some 1) (Some tt) None.

Lemma login_bgi_stopped_at_logout_witness :
  backgroundIdentifier (snd (fst (OnLogin loginEnv serviceReady))) = Some 7 /\
  In BGIdentifierLogout (snd (OnLogout (snd (fst (OnLogin loginEnv serviceReady))))).
Proof.
  apply (login_bgi_stopped_at_logout loginEnv serviceReady (mkGregor true None None)
           [ParseGregorURI; GregorReset; GregorConnect] 1 1 7); reflexivity.
Defined.

(** ** Orchestrator: startup, listen loop, protocol registration *)



(** [ListenLoop] hands every accepted connection to [Handle], in order,
    until the first accept error: a socket-closed error makes it return
    nil, any other error is returned; while accepts succeed it keeps
    accepting. *)
Theorem ListenLoop_handles_until_error : forall cs rest,
  ListenLoop (map Accepted cs ++ AcceptSocketClosed :: rest) = (LoopReturned None, cs) /\
  (forall e, ListenLoop (map Accepted cs ++ AcceptFailed e :: rest) =
             (LoopReturned (Some e), cs)) /\
  ListenLoop (map Accepted cs) = (LoopAccepting, cs).
Proof.
  intros cs rest; induction cs as [| c cs [IH1 [IH2 IH3]]]; simpl.
  - split; [reflexivity | split; [intros; reflexivity | reflexivity]].
  - rewrite IH1, IH3; split; [reflexivity | split; [| reflexivity]].
    intros e; rewrite (IH2 e); reflexivity.
Qed.

(** The registration loop of [RegisterProtocols] calls [Register] on the
    protocols in order up to and including the first one that fails, and
    returns that error (nil when all succeed); the [shutdowners] it returns
    are always empty. *)
Theorem RegisterProtocols_first_failure : forall ok name e rest,
  Forall (fun p => snd p = None) ok ->
  RegisterProtocols (ok ++ (name, Some e) :: rest) = ([], Some e, map fst ok ++ [name]) /\
  RegisterProtocols ok = ([], None, map fst ok).
Proof.
  intros ok name e rest Hok; unfold RegisterProtocols.
  induction Hok as [| [n r] ok Hr Hok [IH1 IH2]]; simpl in *.
  - split; reflexivity.
  - subst r.
    destruct (registerLoop (ok ++ (name, Some e) :: rest)) as [err1 t1].
    destruct (registerLoop ok) as [err2 t2].
    inversion IH1; inversion IH2; subst; split; reflexivity.
Qed.

Lemma RegisterProtocols_first_failure_witness :
  RegisterProtocols [("account", None); ("btc", None); ("config", Some (Opaque 8));
                     ("crypto", None)] =
    ([], Some (Opaque 8), ["account"; "btc"; "config"]) /\
  RegisterProtocols [("account", None); ("btc", None)] = ([], None, ["account"; "btc"]).
Proof.
  apply (RegisterProtocols_first_failure [("account", None); ("btc", None)] "config"
           (Opaque 8) [("crypto", None)]).
  repeat constructor.
Defined.

(** Since [RegisterProtocols] returns no Shutdowner, the connection
    teardown of [Handle], however many close paths fire, runs its body once
    and calls no [Shutdown]. *)
Theorem Handle_teardown_calls_nothing : forall protos ps,
  ps <> [] ->
  Handle (fst (fst (RegisterProtocols protos))) ps = [TeardownBody].
Proof.
  intros protos [| p ps] Hne; [congruence |].
  unfold RegisterProtocols; destruct (registerLoop protos) as [err tried]; simpl.
  unfold Handle; simpl; rewrite fire_done; reflexivity.
Qed.

Lemma Handle_teardown_calls_nothing_witness :
  Handle (fst (fst (RegisterProtocols [("account", None)])))
         [HandleReturns; DaemonShutdownHook] = [TeardownBody].
Proof. apply Handle_teardown_calls_nothing; discriminate. Defined.

(** ** RPC client *)









Definition tagClient : Client :=
  mkClient (Some (fun _ => ([("reqid", "RID"); ("user", "USR")], true))) None None.


(** [Call] dispatches only the requested method and argument, and only when
    the context is non-nil and the transport yields a dispatcher; a
    dispatched call returns the dispatcher's result. *)
Theorem Call_dispatch_guarded : forall c ctx method arg m' a' t,
  In (XDispatchCall m' a' t) (snd (Call c ctx method arg)) ->
  ctx <> None /\ getDispatcher_err c = None /\ m' = method /\ a' = arg /\
  fst (Call c ctx method arg) = dispatch_result c.
Proof.
  intros c [cx |] method arg m' a' t H; unfold Call in *; simpl in H; [| contradiction].
  destruct (getDispatcher_err c); simpl in H.
  - intuition discriminate.
  - destruct H as [H | [H | [H | H]]]; try discriminate; [| contradiction].
    inversion H; subst; repeat split; discriminate.
Qed.

Lemma Call_dispatch_guarded_witness :
  Some (mkCtx []) <> None /\ getDispatcher_err tagClient = None /\
  "m" = "m" /\ "a" = "a" /\ fst (Call tagClient (Some (mkCtx [])) "m" "a") = None.
Proof.
  apply (Call_dispatch_guarded tagClient (Some (mkCtx [])) "m" "a" "m" "a" []).
  vm_compute; auto 10.
Defined.
